(** * Weather widget (src/src/Weather.jsx): a shallow embedding

    JavaScript strings are sequences of UTF-16 code units ([jsstring]);
    JavaScript numbers are IEEE-754 binary64 values, modelled by Rocq's
    primitive floats, so that the arithmetic of [convertTemp] is the one
    the browser performs. *)

From Stdlib Require Import ZArith QArith List String Ascii Bool Lia.
From Stdlib Require Import Floats.
Import ListNotations.

Set Warnings "-inexact-float".
Open Scope list_scope.
Open Scope Z_scope.

(** ** JavaScript strings *)

Definition jsstring := list Z.

(** Literal helper: an ASCII Rocq string as its UTF-16 code units. *)
Fixpoint js (s : string) : jsstring :=
  match s with
  | EmptyString => []
  | String c r => Z.of_nat (nat_of_ascii c) :: js r
  end.

Definition jsstring_eqb (a b : jsstring) : bool :=
  if list_eq_dec Z.eq_dec a b then true else false.

(** Truthiness of a string in a JavaScript condition: only "" is falsy. *)
Definition str_truthy (s : jsstring) : bool :=
  match s with [] => false | _ => true end.

(** ** Number.prototype.toFixed(1)

    ECMAScript 21.1.3.3 with fractionDigits = 1: for a finite x with
    |x| < 10^21, let n be the integer for which n / 10 - |x| is as close to
    zero as possible (the larger n on a tie), write n with at least two
    digits, insert "." before the last digit and prefix "-" when x < 0
    (note that -0 is not < 0).  Non-finite values and |x| >= 10^21 go
    through Number::toString, which is not modelled here. *)
Inductive fixed_out :=
| FixedStr (s : jsstring)
| NumberToString (x : float).

Fixpoint dec_digits_aux (fuel : nat) (n : Z) (acc : jsstring) : jsstring :=
  match fuel with
  | O => acc
  | S f =>
      if n <? 10 then (48 + n) :: acc
      else dec_digits_aux f (n / 10) ((48 + n mod 10) :: acc)
  end.

(** Decimal digits of a non-negative integer ("0" for 0). *)
Definition dec_digits (n : Z) : jsstring :=
  dec_digits_aux (S (Z.to_nat (Z.log2 n))) n [].

(** Steps 10.d to 10.e of toFixed for f = 1. *)
Definition fixed1_digits (n : Z) : jsstring :=
  let m := dec_digits n in
  let k := List.length m in
  let m := if (k <=? 1)%nat then app (repeat 48 (2 - k)) m else m in
  let k := List.length m in
  app (firstn (k - 1) m) (46 :: skipn (k - 1) m).

(** The integer n of step 10.a for |x| = m * 2^e. *)
Definition round10 (m : positive) (e : Z) : Z :=
  if 0 <=? e then 10 * Zpos m * 2 ^ e
  else (20 * Zpos m + 2 ^ (- e)) / 2 ^ (1 - e).

(** |x| >= 10^21 for |x| = m * 2^e. *)
Definition too_large (m : positive) (e : Z) : bool :=
  if 0 <=? e then 10 ^ 21 <=? Zpos m * 2 ^ e
  else 10 ^ 21 * 2 ^ (- e) <=? Zpos m.

Definition toFixed1 (x : float) : fixed_out :=
  match Prim2SF x with
  | S754_zero _ => FixedStr (fixed1_digits 0)
  | S754_finite s m e =>
      if too_large m e then NumberToString x
      else FixedStr (app (if s then [45] else []) (fixed1_digits (round10 m e)))
  | _ => NumberToString x
  end.

(** The exact value of a finite float, as a rational: |x| = m * 2^e. *)
Definition fabs_q (m : positive) (e : Z) : Q :=
  if 0 <=? e then inject_Z (Zpos m * 2 ^ e) else Zpos m # Z.to_pos (2 ^ (- e)).

(** [n / 10] is the one-decimal rounding of [a >= 0], ties going up. *)
Definition nearest_tenth (a : Q) (n : Z) : Prop :=
  ((2 * n - 1) # 2 <= 10 * a)%Q /\ (10 * a < (2 * n + 1) # 2)%Q.

Definition sign_prefix (s : bool) : jsstring := if s then [45] else [].

(** ** convertTemp (lines 34-39)

    [temp] is the unit-preference state, compared with 'fahrenheit'. *)
Definition convertTemp (temp : jsstring) (unit : float) : fixed_out :=
  if jsstring_eqb temp (js "fahrenheit")
  then toFixed1 (PrimFloat.add (PrimFloat.div (PrimFloat.mul unit 9%float) 5%float) 32%float)
  else toFixed1 unit.

Example convertTemp_ex1 : convertTemp (js "fahrenheit") 0%float = FixedStr (js "32.0").
Proof. vm_compute. reflexivity. Qed.
Example convertTemp_ex2 : convertTemp (js "fahrenheit") 28.3%float = FixedStr (js "82.9").
Proof. vm_compute. reflexivity. Qed.
Example convertTemp_ex3 : convertTemp (js "celsius") 28.3%float = FixedStr (js "28.3").
Proof. vm_compute. reflexivity. Qed.
Example convertTemp_ex4 : convertTemp (js "celsius") (-0.04)%float = FixedStr (js "-0.0").
Proof. vm_compute. reflexivity. Qed.
Example convertTemp_ex5 : convertTemp (js "celsius") 0.25%float = FixedStr (js "0.3").
Proof. vm_compute. reflexivity. Qed.

(** The double-precision Fahrenheit expression [(unit * 9 / 5) + 32]. *)
Definition fahrenheit_fl (unit : float) : float :=
  PrimFloat.add (PrimFloat.div (PrimFloat.mul unit 9%float) 5%float) 32%float.

(** The number that [convertTemp] hands to toFixed. *)
Definition converted_operand (temp : jsstring) (unit : float) : float :=
  if jsstring_eqb temp (js "fahrenheit") then fahrenheit_fl unit else unit.

(** Modelled from the spec's wording for the counterexample of C1: the
    exact (real-number) Fahrenheit value of an exact Celsius value. *)
Definition exact_fahrenheit (c : Q) : Q := (c * (9 # 5) + 32)%Q.

Lemma round10_nearest (m : positive) (e : Z) :
  nearest_tenth (fabs_q m e) (round10 m e).
Proof.
  unfold nearest_tenth, fabs_q, round10.
  destruct (0 <=? e) eqn:He.
  - unfold Qle, Qlt, Qmult, inject_Z; cbn [Qnum Qden].
    rewrite Pos.mul_1_l. split; nia.
  - apply Z.leb_gt in He.
    assert (Hd : 0 < 2 ^ (- e)) by (apply Z.pow_pos_nonneg; lia).
    assert (H2 : 2 ^ (1 - e) = 2 * 2 ^ (- e)).
    { replace (1 - e) with (Z.succ (- e)) by lia. rewrite Z.pow_succ_r; lia. }
    rewrite H2.
    set (d := 2 ^ (- e)) in *.
    pose proof (Z.div_mod (20 * Zpos m + d) (2 * d) ltac:(lia)) as Hdm.
    pose proof (Z.mod_pos_bound (20 * Zpos m + d) (2 * d) ltac:(lia)) as Hb.
    set (n := (20 * Zpos m + d) / (2 * d)) in *.
    set (r := (20 * Zpos m + d) mod (2 * d)) in *.
    unfold Qle, Qlt, Qmult; cbn [Qnum Qden].
    rewrite Pos.mul_1_l, Z2Pos.id by lia. split; nia.
Qed.

Lemma toFixed1_finite (x : float) (s : bool) (m : positive) (e : Z) :
  Prim2SF x = S754_finite s m e -> too_large m e = false ->
  toFixed1 x = FixedStr (app (sign_prefix s) (fixed1_digits (round10 m e))).
Proof.
  intros Hx Ht. unfold toFixed1. rewrite Hx, Ht. reflexivity.
Qed.

Lemma convertTemp_operand (temp : jsstring) (unit : float) :
  convertTemp temp unit = toFixed1 (converted_operand temp unit).
Proof.
  unfold convertTemp, converted_operand, fahrenheit_fl.
  destruct (jsstring_eqb temp (js "fahrenheit")); reflexivity.
Qed.

(** ** String.prototype.trim

    Removes leading and trailing WhiteSpace and LineTerminator code points
    (ECMAScript 12.2 and 12.3); all of them lie in the BMP. *)
Definition js_ws (c : Z) : bool :=
  existsb (Z.eqb c)
    [9; 11; 12; 32; 160; 5760; 8239; 8287; 12288; 65279; 10; 13; 8232; 8233]
  || ((8192 <=? c) && (c <=? 8202)).

Fixpoint drop_ws (s : jsstring) : jsstring :=
  match s with
  | [] => []
  | c :: r => if js_ws c then drop_ws r else s
  end.

Definition trim (s : jsstring) : jsstring := rev (drop_ws (rev (drop_ws s))).

(** ** Data fetched from the weather API (the fields the widget reads) *)

Record condition := mkCondition {
  cond_main : jsstring;
  cond_description : jsstring
}.

Record snapshot := mkSnapshot {
  name : jsstring;
  sys_country : jsstring;
  weather : list condition;
  main_temp : float;
  main_feels_like : float;
  main_humidity : float;
  wind_speed : float;
  clouds_all : float
}.

(** ** WeatherIcon (lines 9-20) *)

Inductive icon_component := Sun | CloudRain | Cloud.

Record icon := mkIcon {
  icon_of : icon_component;
  icon_class : jsstring;
  icon_label : jsstring
}.

Definition icon_clear := mkIcon Sun (js "weather-icon sun") (js "Clear sky").
Definition icon_rain := mkIcon CloudRain (js "weather-icon rain") (js "Rain").
Definition icon_clouds := mkIcon Cloud (js "weather-icon cloud") (js "Cloudy").
Definition icon_default := mkIcon Sun (js "weather-icon sun") (js "Default weather").

Section Render.

(** String.prototype.toLowerCase, the Unicode default case mapping. *)
Variable toLowerCase : jsstring -> jsstring.

Definition WeatherIcon (condition : jsstring) : icon :=
  let c := toLowerCase condition in
  if jsstring_eqb c (js "clear") then icon_clear
  else if jsstring_eqb c (js "rain") then icon_rain
  else if jsstring_eqb c (js "clouds") then icon_clouds
  else icon_default.

(** ** Component state (lines 27-31) *)

Record state := mkState {
  city : jsstring;
  weatherData : option snapshot;
  temp : jsstring;
  error : option jsstring;
  loading : bool
}.

Definition initial_state : state :=
  mkState (js "Accra") None (js "celsius") None false.

Definition set_city (s : state) (v : jsstring) : state :=
  mkState v (weatherData s) (temp s) (error s) (loading s).
Definition set_weatherData (s : state) (d : snapshot) : state :=
  mkState (city s) (Some d) (temp s) (error s) (loading s).
Definition set_temp (s : state) (u : jsstring) : state :=
  mkState (city s) (weatherData s) u (error s) (loading s).
Definition set_error (s : state) (e : option jsstring) : state :=
  mkState (city s) (weatherData s) (temp s) e (loading s).
Definition set_loading (s : state) (b : bool) : state :=
  mkState (city s) (weatherData s) (temp s) (error s) b.

(** ** Rendering (lines 78-160) *)

Record panel := mkPanel {
  p_city_name : jsstring;
  p_country : jsstring;
  p_icon : icon;
  p_temp : fixed_out;
  p_temp_unit : jsstring;
  p_description : jsstring;
  p_feels_like : fixed_out;
  p_feels_unit : jsstring;
  p_wind : float;
  p_clouds : float;
  p_humidity : float
}.

Definition unit_letter (t : jsstring) : jsstring :=
  if jsstring_eqb t (js "celsius") then js "C" else js "F".

(** The result panel; [None] when [weather[0]] is undefined (a TypeError). *)
Definition render_panel (t : jsstring) (d : snapshot) : option panel :=
  match weather d with
  | [] => None
  | w :: _ =>
      Some (mkPanel (name d) (sys_country d) (WeatherIcon (cond_main w))
              (convertTemp t (main_temp d)) (unit_letter t)
              (cond_description w)
              (convertTemp t (main_feels_like d)) (unit_letter t)
              (wind_speed d) (clouds_all d) (main_humidity d))
  end.

Record view := mkView {
  v_input : jsstring;
  v_celsius_pressed : bool;
  v_fahrenheit_pressed : bool;
  v_loading_indicator : bool;
  v_error_banner : option jsstring;
  v_success : bool;
  v_panel : option panel
}.

Definition error_truthy (e : option jsstring) : bool :=
  match e with Some m => str_truthy m | None => false end.

Definition render (s : state) : view :=
  let success :=
    match weatherData s with
    | Some _ => negb (error_truthy (error s)) && negb (loading s)
    | None => false
    end in
  mkView (city s)
    (jsstring_eqb (temp s) (js "celsius"))
    (jsstring_eqb (temp s) (js "fahrenheit"))
    (loading s)
    (match error s with
     | Some m => if str_truthy m then Some m else None
     | None => None
     end)
    success
    (match weatherData s with
     | Some d => if success then render_panel (temp s) d else None
     | None => None
     end).

End Render.

(** ** fetchWeather (lines 41-60) *)

Definition API_URL : jsstring := js "https://api.openweathermap.org/data/2.5/weather".

(** The request URL; [api_key] is process.env.REACT_APP_WEATHER_API_KEY. *)
Definition request_url (api_key cityName : jsstring) : jsstring :=
  API_URL ++ js "?q=" ++ cityName ++ js "&appid=" ++ api_key ++ js "&units=metric".

(** The outbound effect of a lookup: one GET for [cityName]. *)
Inductive effect := FetchWeather (cityName : jsstring).

(** The body read by [response.json()]: a parsed snapshot, or the message
    of the exception it rejects with. *)
Inductive body :=
| JsonBody (d : snapshot)
| BadJson (message : jsstring).

(** How the [fetch] promise settles: rejection with an exception message,
    or a response with its status and body. *)
Inductive outcome :=
| NetworkError (message : jsstring)
| Response (status : Z) (b : body).

Definition response_ok (status : Z) : bool := (200 <=? status) && (status <=? 299).

Definition msg_not_found : jsstring :=
  js "City not found. Please check the spelling and try again.".
Definition msg_generic : jsstring :=
  js "Failed to fetch weather data. Please try again later.".

(** The synchronous part, up to the first [await] (lines 43-44). *)
Definition fetch_start (s : state) : state :=
  set_error (set_loading s true) None.

(** The continuation after [fetch] settles: the try body, the catch, then
    the finally (lines 46-59). *)
Definition fetch_settle (s : state) (o : outcome) : state :=
  let s :=
    match o with
    | NetworkError m => set_error s (Some m)
    | Response status b =>
        if negb (response_ok status) then
          if status =? 404 then set_error s (Some msg_not_found)
          else set_error s (Some msg_generic)
        else
          match b with
          | JsonBody d => set_weatherData s d
          | BadJson m => set_error s (Some m)
          end
    end in
  set_loading s false.

(** ** The widget with its outstanding lookups

    [pending] counts the lookups whose [fetch] has not settled yet; nothing
    orders or cancels them, so they may settle in any order. *)
Record config := mkConfig {
  st : state;
  pending : nat
}.

Definition initial_config : config := mkConfig initial_state 0.

(** A call [fetchWeather(cityName)] up to its [await]. *)
Definition lookup (c : config) (cityName : jsstring) : config * list effect :=
  (mkConfig (fetch_start (st c)) (S (pending c)), [FetchWeather cityName]).

(** The mount effect (lines 63-65): [fetchWeather(city)] with the first
    render's [city]. *)
Definition mount : config * list effect :=
  lookup initial_config (city initial_state).

(** handleSubmit (lines 71-76). *)
Definition handleSubmit (c : config) : config * list effect :=
  if str_truthy (trim (city (st c))) then lookup c (city (st c)) else (c, []).

Inductive event :=
| Input (value : jsstring)          (* handleInput *)
| Submit                            (* the form's submit *)
| SetTemp (u : jsstring)            (* a unit toggle button *)
| Respond (o : outcome).            (* one outstanding fetch settles *)

Definition step (c : config) (ev : event) : option (config * list effect) :=
  match ev with
  | Input v => Some (mkConfig (set_city (st c) v) (pending c), [])
  | Submit => Some (handleSubmit c)
  | SetTemp u => Some (mkConfig (set_temp (st c) u) (pending c), [])
  | Respond o =>
      match pending c with
      | O => None
      | S p => Some (mkConfig (fetch_settle (st c) o) p, [])
      end
  end.

Fixpoint run (c : config) (evs : list event) : option (config * list effect) :=
  match evs with
  | [] => Some (c, [])
  | ev :: rest =>
      match step c ev with
      | None => None
      | Some (c1, e1) =>
          match run c1 rest with
          | None => None
          | Some (c2, e2) => Some (c2, e1 ++ e2)
          end
      end
  end.

(** The configurations the widget reaches after mounting. *)
Definition reachable (c : config) : Prop :=
  exists evs effs, run (fst mount) evs = Some (c, effs).

(** * Properties *)

Lemma jsstring_eqb_spec (a b : jsstring) : jsstring_eqb a b = true <-> a = b.
Proof.
  unfold jsstring_eqb. destruct (list_eq_dec Z.eq_dec a b); split; congruence.
Qed.

Lemma jsstring_eqb_false (a b : jsstring) : jsstring_eqb a b = false <-> a <> b.
Proof.
  rewrite <- jsstring_eqb_spec. destruct (jsstring_eqb a b); split; congruence.
Qed.

(** ** Temperature conversion *)

(** A Celsius reading, 15.583333333333334 as a double. *)
Definition x_c1 : float := 15.583333333333334%float.

(** C1 (counterexample): with the Fahrenheit preference, the double
    15.583333333333334 (exactly 8772636774148779 * 2^-49) is converted to
    "60.0", although its exact value times 9/5 plus 32 lies strictly between
    60.05 and 60.15 and so rounds to 60.1 to one decimal place, whichever
    way ties are broken: the double-precision evaluation of
    [(unit * 9 / 5) + 32] lands on the other side of 60.05. *)
Lemma C1_convertTemp_not_exact :
  Prim2SF x_c1 = S754_finite false 8772636774148779 (-49) /\
  (1201 # 20 < exact_fahrenheit (fabs_q 8772636774148779 (-49)))%Q /\
  (exact_fahrenheit (fabs_q 8772636774148779 (-49)) < 1203 # 20)%Q /\
  convertTemp (js "fahrenheit") x_c1 = FixedStr (js "60.0").
Proof.
  split; [vm_compute; reflexivity|].
  split; [unfold Qlt; vm_compute; reflexivity|].
  split; [unfold Qlt; vm_compute; reflexivity|].
  vm_compute. reflexivity.
Qed.

(** C1 (amended): [convertTemp] formats with toFixed(1) the double
    [(unit * 9 / 5) + 32] under the 'fahrenheit' preference and [unit]
    itself under any other.  For every operand: zero (of either sign) gives
    "0.0"; a finite nonzero operand below 10^21 in magnitude gives its sign
    followed by the digits of the integer n with
    n - 1/2 <= 10 * |operand| < n + 1/2 (the exact value of the double
    rounded to one decimal, ties away from zero); NaN, the infinities and
    magnitudes of 10^21 or more go through Number::toString.  In particular
    0, 100 and 28.3 convert to "32.0", "212.0" and "82.9" in Fahrenheit, and
    0 to "0.0" in Celsius. *)
Theorem C1_convertTemp_rounds_double (t : jsstring) (x : float) :
  converted_operand t x =
    (if jsstring_eqb t (js "fahrenheit") then fahrenheit_fl x else x) /\
  match Prim2SF (converted_operand t x) with
  | S754_zero _ => convertTemp t x = FixedStr (js "0.0")
  | S754_finite s m e =>
      if too_large m e
      then convertTemp t x = NumberToString (converted_operand t x)
      else convertTemp t x = FixedStr (sign_prefix s ++ fixed1_digits (round10 m e)) /\
           nearest_tenth (fabs_q m e) (round10 m e)
  | _ => convertTemp t x = NumberToString (converted_operand t x)
  end /\
  convertTemp (js "fahrenheit") 0%float = FixedStr (js "32.0") /\
  convertTemp (js "fahrenheit") 100%float = FixedStr (js "212.0") /\
  convertTemp (js "fahrenheit") 28.3%float = FixedStr (js "82.9") /\
  convertTemp (js "celsius") 0%float = FixedStr (js "0.0").
Proof.
  split; [reflexivity|].
  split.
  { rewrite convertTemp_operand. unfold toFixed1.
    destruct (Prim2SF (converted_operand t x)) as [b|b| |s m e]; try reflexivity.
    destruct (too_large m e); [reflexivity|].
    split; [reflexivity | apply round10_nearest]. }
  split; [vm_compute; reflexivity|].
  split; [vm_compute; reflexivity|].
  split; vm_compute; reflexivity.
Qed.

(** ** Condition to icon *)

(** C2: for every lowering function and every condition string, WeatherIcon
    returns exactly one of four icons, chosen by comparing the lowered
    string with "clear", "rain" and "clouds", with the default (a sun icon)
    for every other string; the four icons are pairwise distinct. *)
Theorem C2_WeatherIcon_total (toLowerCase : jsstring -> jsstring) (c : jsstring) :
  let l := toLowerCase c in
  ((l = js "clear" /\ WeatherIcon toLowerCase c = icon_clear) \/
   (l = js "rain" /\ WeatherIcon toLowerCase c = icon_rain) \/
   (l = js "clouds" /\ WeatherIcon toLowerCase c = icon_clouds) \/
   (l <> js "clear" /\ l <> js "rain" /\ l <> js "clouds" /\
    WeatherIcon toLowerCase c = icon_default)) /\
  icon_of icon_default = Sun /\
  NoDup [icon_clear; icon_rain; icon_clouds; icon_default].
Proof.
  intros l. split; [|split; [reflexivity|]].
  - unfold WeatherIcon. fold l.
    destruct (jsstring_eqb l (js "clear")) eqn:E1.
    { left. split; [apply jsstring_eqb_spec; exact E1 | reflexivity]. }
    destruct (jsstring_eqb l (js "rain")) eqn:E2.
    { right; left. split; [apply jsstring_eqb_spec; exact E2 | reflexivity]. }
    destruct (jsstring_eqb l (js "clouds")) eqn:E3.
    { right; right; left. split; [apply jsstring_eqb_spec; exact E3 | reflexivity]. }
    right; right; right.
    apply jsstring_eqb_false in E1, E2, E3. auto.
  - repeat constructor; simpl; intuition discriminate.
Qed.

(** ** Lookup outcomes *)

Lemma fetch_settle_city (s : state) (o : outcome) :
  city (fetch_settle s o) = city s.
Proof.
  destruct o as [m | status [d | m]]; unfold fetch_settle;
    try destruct (negb (response_ok status)); try destruct (status =? 404);
    reflexivity.
Qed.

Lemma fetch_settle_loading (s : state) (o : outcome) :
  loading (fetch_settle s o) = false.
Proof.
  destruct o as [m | status [d | m]]; unfold fetch_settle;
    try destruct (negb (response_ok status)); try destruct (status =? 404);
    reflexivity.
Qed.

(** C3 (counterexample): when [fetch] itself rejects (a network failure,
    here with the browser's message "Failed to fetch"), the stored error is
    that exception's message, not the generic retry-later message. *)
Lemma C3_network_failure_raw_message :
  option_map (fun r => error (st (fst r)))
    (step (fst mount) (Respond (NetworkError (js "Failed to fetch"))))
    = Some (Some (js "Failed to fetch")) /\
  js "Failed to fetch" <> msg_generic /\
  js "Failed to fetch" <> msg_not_found.
Proof.
  split; [reflexivity|].
  split; unfold msg_generic, msg_not_found; simpl; congruence.
Qed.

(** C3 (amended): every settled lookup is handled by the widget (the step
    is defined and emits nothing), loading ends, and on failure the stored
    error is: the "city not found" message for status 404, the generic
    retry-later message for any other non-2xx status, and the message of the
    exception itself when [fetch] rejects or [response.json()] fails. *)
Theorem C3_failure_messages (c : config) (p : nat) (o : outcome)
    (Hp : pending c = S p) :
  exists c', step c (Respond o) = Some (c', []) /\ pending c' = p /\
    loading (st c') = false /\
    (forall status b, o = Response status b -> response_ok status = false ->
       error (st c') =
         Some (if status =? 404 then msg_not_found else msg_generic)) /\
    (forall m, o = NetworkError m -> error (st c') = Some m) /\
    (forall status m, o = Response status (BadJson m) ->
       response_ok status = true -> error (st c') = Some m).
Proof.
  exists (mkConfig (fetch_settle (st c) o) p).
  unfold step. rewrite Hp.
  split; [reflexivity|]. split; [reflexivity|].
  split; [apply fetch_settle_loading|].
  split; [|split].
  - intros status b -> Hok. unfold fetch_settle. rewrite Hok. simpl.
    destruct (status =? 404); reflexivity.
  - intros m ->. reflexivity.
  - intros status m -> Hok. unfold fetch_settle. rewrite Hok. reflexivity.
Qed.

Lemma C3_failure_messages_witness :
  pending (fst mount) = 1%nat /\
  exists c', step (fst mount) (Respond (Response 404 (BadJson []))) = Some (c', []).
Proof.
  split; [reflexivity|].
  destruct (C3_failure_messages (fst mount) 0 (Response 404 (BadJson [])) eq_refl)
    as [c' [H _]].
  exists c'. exact H.
Defined.

(** A weather record as the API returns it for Accra. *)
Definition snapshot_accra : snapshot :=
  mkSnapshot (js "Accra") (js "GH")
    [mkCondition (js "Clouds") (js "broken clouds")]
    28.3%float 30.1%float 74%float 3.6%float 75%float.

(** C4 (counterexample): the mount lookup for "Accra" is outstanding when
    the user submits "Acra"; the second lookup fails with 404, then the
    first one succeeds.  Its success stores the snapshot and ends loading,
    but the error set in between is not cleared, so the widget shows the
    "city not found" banner and no success display. *)
Lemma C4_success_after_other_failure :
  exists c effs,
    run (fst mount)
      [Input (js "Acra"); Submit; Respond (Response 404 (BadJson []));
       Respond (Response 200 (JsonBody snapshot_accra))] = Some (c, effs) /\
    weatherData (st c) = Some snapshot_accra /\
    error (st c) = Some msg_not_found /\
    loading (st c) = false /\
    v_success (render (fun s => s) (st c)) = false /\
    v_error_banner (render (fun s => s) (st c)) = Some msg_not_found.
Proof.
  eexists. eexists. split; [reflexivity|].
  split; [reflexivity|]. split; [reflexivity|]. split; [reflexivity|].
  split; reflexivity.
Qed.

Definition is_respond (ev : event) : bool :=
  match ev with Respond _ => true | _ => false end.

Lemma run_app (c : config) (l1 l2 : list event) :
  run c (l1 ++ l2) =
    match run c l1 with
    | None => None
    | Some (c1, e1) =>
        match run c1 l2 with
        | None => None
        | Some (c2, e2) => Some (c2, e1 ++ e2)
        end
    end.
Proof.
  revert c. induction l1 as [|ev rest IH]; intro c; simpl.
  - destruct (run c l2) as [[c2 e2]|]; reflexivity.
  - destruct (step c ev) as [[c1 e1]|]; [|reflexivity].
    rewrite IH. destruct (run c1 rest) as [[ca ea]|]; [|reflexivity].
    destruct (run ca l2) as [[cb eb]|]; [|reflexivity].
    rewrite app_assoc. reflexivity.
Qed.

(** Events that settle no fetch keep a cleared error cleared and keep at
    least one fetch outstanding. *)
Lemma run_no_respond (evs : list event) (c : config) :
  error (st c) = None -> (0 < pending c)%nat ->
  Forall (fun ev => is_respond ev = false) evs ->
  exists c1 effs, run c evs = Some (c1, effs) /\
    error (st c1) = None /\ (0 < pending c1)%nat.
Proof.
  revert c. induction evs as [|ev rest IH]; intros c He Hp Hf.
  - exists c, []. split; [reflexivity|]. split; assumption.
  - inversion Hf as [|ev0 rest0 Hev Hrest]; subst.
    assert (Hs : exists c1 e1, step c ev = Some (c1, e1) /\
                   error (st c1) = None /\ (0 < pending c1)%nat).
    { destruct ev as [v | | u | o]; simpl in Hev; try discriminate.
      - eexists; eexists; split; [reflexivity|]. split; assumption.
      - simpl. unfold handleSubmit.
        destruct (str_truthy (trim (city (st c)))).
        + eexists; eexists; split; [reflexivity|]. split; [reflexivity|simpl; lia].
        + eexists; eexists; split; [reflexivity|]. split; assumption.
      - eexists; eexists; split; [reflexivity|]. split; assumption. }
    destruct Hs as [c1 [e1 [Hs [He1 Hp1]]]].
    destruct (IH c1 He1 Hp1 Hrest) as [c2 [e2 [Hr [He2 Hp2]]]].
    exists c2, (e1 ++ e2). simpl. rewrite Hs, Hr. split; [reflexivity|].
    split; assumption.
Qed.

(** C4 (amended): when a lookup starts, and after any number of events that
    settle no fetch (typing, unit toggles, further submissions) the next
    fetch to settle succeeds with status 200 and a snapshot, the snapshot
    replaces the stored one, no error is stored (errors are cleared when a
    lookup starts and nothing in between sets one) and loading ends, so the
    widget shows the success display with no error banner and no loading
    indicator.  The successful completion itself only stores the snapshot
    and ends loading: any error stored meanwhile by another lookup is
    kept. *)
Theorem C4_lookup_success (toLowerCase : jsstring -> jsstring)
    (c : config) (cityName : jsstring) (d : snapshot) (evs : list event)
    (Hevs : Forall (fun ev => is_respond ev = false) evs) :
  (exists c2 effs,
     run (fst (lookup c cityName)) (evs ++ [Respond (Response 200 (JsonBody d))])
       = Some (c2, effs) /\
     weatherData (st c2) = Some d /\
     error (st c2) = None /\
     loading (st c2) = false /\
     v_success (render toLowerCase (st c2)) = true /\
     v_error_banner (render toLowerCase (st c2)) = None /\
     v_loading_indicator (render toLowerCase (st c2)) = false) /\
  match pending c with
  | O => step c (Respond (Response 200 (JsonBody d))) = None
  | S p => step c (Respond (Response 200 (JsonBody d)))
             = Some (mkConfig (set_loading (set_weatherData (st c) d) false) p, [])
  end.
Proof.
  split.
  - destruct (run_no_respond evs (fst (lookup c cityName)) eq_refl
                ltac:(simpl; lia) Hevs) as [c1 [e1 [Hr [He Hp]]]].
    destruct (pending c1) as [|p] eqn:Hpc; [lia|].
    exists (mkConfig (set_loading (set_weatherData (st c1) d) false) p), (e1 ++ []).
    rewrite run_app, Hr. simpl. rewrite Hpc. simpl.
    split; [reflexivity|].
    unfold render; cbn. rewrite He. repeat split; reflexivity.
  - destruct (pending c) eqn:Hp; unfold step; rewrite Hp; reflexivity.
Qed.

Lemma C4_lookup_success_witness :
  Forall (fun ev => is_respond ev = false)
    [Input (js "Kumasi"); SetTemp (js "fahrenheit"); Submit] /\
  exists c2 effs,
    run (fst (lookup initial_config (js "Accra")))
      ([Input (js "Kumasi"); SetTemp (js "fahrenheit"); Submit] ++
       [Respond (Response 200 (JsonBody snapshot_accra))]) = Some (c2, effs) /\
    v_success (render (fun s => s) (st c2)) = true.
Proof.
  assert (Hf : Forall (fun ev => is_respond ev = false)
                 [Input (js "Kumasi"); SetTemp (js "fahrenheit"); Submit])
    by (repeat constructor).
  split; [exact Hf|].
  destruct (proj1 (C4_lookup_success (fun s => s) initial_config (js "Accra")
                     snapshot_accra _ Hf))
    as [c2 [effs [Hr [_ [_ [_ [Hs _]]]]]]].
  exists c2, effs. split; [exact Hr | exact Hs].
Defined.

(** ** Submission *)

(** Blank in the sense of String.prototype.trim: every code unit is
    WhiteSpace or a LineTerminator (the empty string included). *)
Definition is_blank (s : jsstring) : Prop := Forall (fun ch => js_ws ch = true) s.

Lemma drop_ws_nil (s : jsstring) : drop_ws s = [] <-> is_blank s.
Proof.
  unfold is_blank. induction s as [|ch r IH]; simpl.
  - split; auto.
  - destruct (js_ws ch) eqn:E.
    + rewrite IH. split; [intro H; constructor; auto | intro H; inversion H; auto].
    + split; [discriminate | intro H; inversion H; congruence].
Qed.

Lemma drop_ws_head (s r : jsstring) (ch : Z) :
  drop_ws s = ch :: r -> js_ws ch = false.
Proof.
  induction s as [|x s IH]; simpl; [discriminate|].
  destruct (js_ws x) eqn:E; [exact IH | intro H; inversion H; subst; exact E].
Qed.

Lemma trim_nil (s : jsstring) : trim s = [] <-> is_blank s.
Proof.
  rewrite <- drop_ws_nil. unfold trim. split.
  - intro H.
    assert (H1 : drop_ws (rev (drop_ws s)) = []).
    { destruct (drop_ws (rev (drop_ws s))) as [|x r] eqn:E; [reflexivity|].
      simpl in H. destruct (rev r); simpl in H; discriminate. }
    apply drop_ws_nil in H1. unfold is_blank in H1.
    apply Forall_rev in H1. rewrite rev_involutive in H1.
    destruct (drop_ws s) as [|ch r] eqn:E; [reflexivity|].
    apply drop_ws_head in E. inversion H1; congruence.
  - intro H. rewrite H. reflexivity.
Qed.

(** C5: a submission whose input is blank (empty or only whitespace, as
    trim sees it) emits no request and leaves the whole configuration
    (every state field and the outstanding lookups) unchanged; any other
    submission is [lookup] of the input, the same operation the mount
    effect performs. *)
Theorem C5_submit_blank_or_lookup (c : config) :
  ((is_blank (city (st c)) /\ step c Submit = Some (c, [])) \/
   (~ is_blank (city (st c)) /\
    step c Submit = Some (lookup c (city (st c))))) /\
  mount = lookup initial_config (city initial_state).
Proof.
  split; [|reflexivity].
  unfold step, handleSubmit.
  destruct (trim (city (st c))) eqn:E.
  - left. split; [apply trim_nil; exact E | reflexivity].
  - right. split; [|reflexivity].
    rewrite <- trim_nil, E. discriminate.
Qed.

(** ** Display states *)

Definition loading_inv (c : config) : Prop :=
  loading (st c) = true -> error (st c) = None.

Lemma step_loading_inv (c c' : config) (ev : event) (effs : list effect) :
  loading_inv c -> step c ev = Some (c', effs) -> loading_inv c'.
Proof.
  unfold loading_inv. intros Hi Hs.
  destruct ev as [v | | u | o]; simpl in Hs.
  - inversion Hs; subst. exact Hi.
  - unfold handleSubmit in Hs.
    destruct (str_truthy (trim (city (st c)))); inversion Hs; subst;
      [reflexivity | exact Hi].
  - inversion Hs; subst. exact Hi.
  - destruct (pending c); inversion Hs; subst. cbn [st].
    rewrite fetch_settle_loading. discriminate.
Qed.

Lemma run_loading_inv (evs : list event) (c c' : config) (effs : list effect) :
  loading_inv c -> run c evs = Some (c', effs) -> loading_inv c'.
Proof.
  revert c effs. induction evs as [|ev rest IH]; simpl; intros c effs Hi Hr.
  - inversion Hr; subst. exact Hi.
  - destruct (step c ev) as [[c1 e1]|] eqn:Hs; [|discriminate].
    destruct (run c1 rest) as [[c2 e2]|] eqn:Hr2; [|discriminate].
    inversion Hr; subst.
    exact (IH c1 e2 (step_loading_inv c c1 ev e1 Hi Hs) Hr2).
Qed.

(** C6: in every configuration the widget reaches after mounting, while the
    loading flag is set the view shows the loading indicator, no error
    banner and no success display. *)
Theorem C6_loading_excludes_other_displays (toLowerCase : jsstring -> jsstring)
    (c : config) (Hr : reachable c) (Hl : loading (st c) = true) :
  v_loading_indicator (render toLowerCase (st c)) = true /\
  v_error_banner (render toLowerCase (st c)) = None /\
  v_success (render toLowerCase (st c)) = false /\
  v_panel (render toLowerCase (st c)) = None.
Proof.
  destruct Hr as [evs [effs Hrun]].
  assert (He : error (st c) = None).
  { apply (run_loading_inv evs (fst mount) c effs); [|exact Hrun|exact Hl].
    intros _. reflexivity. }
  unfold render; simpl. rewrite He, Hl.
  destruct (weatherData (st c)); repeat split; reflexivity.
Qed.

Lemma C6_loading_excludes_other_displays_witness :
  reachable (fst mount) /\ loading (st (fst mount)) = true /\
  v_success (render (fun s => s) (st (fst mount))) = false.
Proof.
  assert (Hr : reachable (fst mount)) by (exists [], []; reflexivity).
  assert (Hl : loading (st (fst mount)) = true) by reflexivity.
  split; [exact Hr|]. split; [exact Hl|].
  exact (proj1 (proj2 (proj2
    (C6_loading_excludes_other_displays (fun s => s) (fst mount) Hr Hl)))).
Defined.

(** ** Unit toggle *)

(** The parts of the result panel that do not show a temperature. *)
Definition panel_rest (p : panel) :=
  (p_city_name p, p_country p, p_icon p, p_description p,
   p_wind p, p_clouds p, p_humidity p).

(** C7: pressing a unit button with any unit value [u] emits no request,
    keeps the outstanding lookups, and changes only the unit preference of
    the state; in the view, the input, the loading indicator, the error
    banner, whether the success display is shown, and every part of the
    result panel other than the temperature and feels-like values (and their
    unit letters) stay the same, while the toggle buttons reflect [u]. *)
Theorem C7_setTemp_local (toLowerCase : jsstring -> jsstring)
    (c : config) (u : jsstring) :
  let s' := set_temp (st c) u in
  step c (SetTemp u) = Some (mkConfig s' (pending c), []) /\
  city s' = city (st c) /\ weatherData s' = weatherData (st c) /\
  error s' = error (st c) /\ loading s' = loading (st c) /\ temp s' = u /\
  v_input (render toLowerCase s') = v_input (render toLowerCase (st c)) /\
  v_loading_indicator (render toLowerCase s')
    = v_loading_indicator (render toLowerCase (st c)) /\
  v_error_banner (render toLowerCase s')
    = v_error_banner (render toLowerCase (st c)) /\
  v_success (render toLowerCase s') = v_success (render toLowerCase (st c)) /\
  option_map panel_rest (v_panel (render toLowerCase s'))
    = option_map panel_rest (v_panel (render toLowerCase (st c))) /\
  v_celsius_pressed (render toLowerCase s') = jsstring_eqb u (js "celsius") /\
  v_fahrenheit_pressed (render toLowerCase s') = jsstring_eqb u (js "fahrenheit").
Proof.
  intros s'. destruct c as [[ci wd t e l] p]. subst s'.
  unfold set_temp, render, render_panel; simpl.
  repeat split.
  destruct wd as [d|]; [|reflexivity].
  destruct (negb (error_truthy e) && negb l); [|reflexivity].
  destruct (weather d); reflexivity.
Qed.

(** ** Failed lookups keep the snapshot *)

Definition outcome_fails (o : outcome) : bool :=
  match o with
  | Response status (JsonBody _) => negb (response_ok status)
  | _ => true
  end.

(** C8: starting a lookup does not touch the stored snapshot, and a failed
    lookup only stores its message and ends loading: the last snapshot stays
    in the state, and the success display is hidden while that (non-empty)
    message is stored. *)
Theorem C8_failure_keeps_snapshot (toLowerCase : jsstring -> jsstring)
    (c : config) (p : nat) (o : outcome)
    (Hp : pending c = S p) (Hf : outcome_fails o = true) :
  weatherData (fetch_start (st c)) = weatherData (st c) /\
  exists m,
    step c (Respond o)
      = Some (mkConfig (set_loading (set_error (st c) (Some m)) false) p, []) /\
    weatherData (set_loading (set_error (st c) (Some m)) false)
      = weatherData (st c) /\
    (str_truthy m = true ->
     v_success (render toLowerCase (set_loading (set_error (st c) (Some m)) false))
       = false).
Proof.
  split; [reflexivity|].
  assert (Hhide : forall m, str_truthy m = true ->
     v_success (render toLowerCase (set_loading (set_error (st c) (Some m)) false))
       = false).
  { intros m Hm. unfold render; simpl. rewrite Hm.
    destruct (weatherData (st c)); reflexivity. }
  unfold step. rewrite Hp.
  destruct o as [m | status [d | m]].
  - exists m. repeat split. exact (Hhide m).
  - simpl in Hf. unfold fetch_settle. rewrite Hf.
    destruct (status =? 404).
    + exists msg_not_found. repeat split. exact (Hhide msg_not_found).
    + exists msg_generic. repeat split. exact (Hhide msg_generic).
  - unfold fetch_settle. destruct (negb (response_ok status)).
    + destruct (status =? 404).
      * exists msg_not_found. repeat split. exact (Hhide msg_not_found).
      * exists msg_generic. repeat split. exact (Hhide msg_generic).
    + exists m. repeat split. exact (Hhide m).
Qed.

Lemma C8_failure_keeps_snapshot_witness :
  pending (fst mount) = 1%nat /\ outcome_fails (Response 500 (BadJson [])) = true /\
  weatherData (fetch_start (st (fst mount))) = weatherData (st (fst mount)).
Proof.
  split; [reflexivity|]. split; [reflexivity|].
  exact (proj1 (C8_failure_keeps_snapshot (fun s => s) (fst mount) 0
                  (Response 500 (BadJson [])) eq_refl eq_refl)).
Defined.

(** ** Mount and the query field *)

(** C9: the query state starts as "Accra", and the mount effect is the
    lookup of that initial value: it starts loading and requests "Accra". *)
Theorem C9_mount_accra :
  city initial_state = js "Accra" /\
  mount = lookup initial_config (js "Accra") /\
  mount = (mkConfig (fetch_start initial_state) 1, [FetchWeather (js "Accra")]).
Proof.
  split; [reflexivity|]. split; reflexivity.
Qed.

(** C10: a submission never changes the query text, and neither does the
    settling of the lookup it starts: the input keeps the submitted name. *)
Theorem C10_submit_keeps_city (c : config) :
  option_map (fun r => city (st (fst r))) (step c Submit) = Some (city (st c)) /\
  (forall o, match step c (Respond o) with
             | Some (c', _) => city (st c') = city (st c)
             | None => True
             end).
Proof.
  split.
  - unfold step, handleSubmit.
    destruct (str_truthy (trim (city (st c)))); reflexivity.
  - intros o. unfold step. destruct (pending c); [exact I|].
    apply fetch_settle_city.
Qed.

(** * Further properties of the widget *)

(** ** The strings toFixed(1) produces *)

Definition is_digit (c : Z) : bool := (48 <=? c) && (c <=? 57).

Definition digits_value (ds : jsstring) : Z :=
  fold_left (fun a c => 10 * a + (c - 48)) ds 0.

(** Reads an optional "-", one or more digits, "." and one digit, as the
    sign and the integer the digits spell without the dot. *)
Definition parse_fixed1 (s : jsstring) : option (bool * Z) :=
  let '(neg, rest) :=
    match s with
    | c :: r => if c =? 45 then (true, r) else (false, s)
    | [] => (false, s)
    end in
  match rev rest with
  | d :: dot :: ip_rev =>
      if (dot =? 46) && is_digit d && forallb is_digit ip_rev &&
         negb (Nat.eqb (List.length ip_rev) 0)
      then Some (neg, 10 * digits_value (rev ip_rev) + (d - 48))
      else None
  | _ => None
  end.

Lemma is_digit_of (k : Z) : 0 <= k < 10 -> is_digit (48 + k) = true.
Proof.
  intro H. unfold is_digit. apply andb_true_iff.
  split; apply Z.leb_le; lia.
Qed.

Lemma digits_value_snoc (ds : jsstring) (d : Z) :
  digits_value (ds ++ [d]) = 10 * digits_value ds + (d - 48).
Proof. unfold digits_value. rewrite fold_left_app. reflexivity. Qed.

Lemma dec_digits_aux_spec (f : nat) (n : Z) (acc : jsstring) :
  0 <= n < 10 ^ Z.of_nat (S f) ->
  exists ds, dec_digits_aux (S f) n acc = ds ++ acc /\ ds <> [] /\
    forallb is_digit ds = true /\ digits_value ds = n.
Proof.
  revert n acc. induction f as [|f IH]; intros n acc Hn.
  - cbn [dec_digits_aux]. destruct (n <? 10) eqn:E;
      [|apply Z.ltb_ge in E; simpl in Hn; lia].
    apply Z.ltb_lt in E.
    exists [48 + n]. split; [reflexivity|]. split; [discriminate|].
    split; [cbn [forallb]; rewrite is_digit_of by lia; reflexivity|].
    unfold digits_value; cbn [fold_left]. lia.
  - change (dec_digits_aux (S (S f)) n acc) with
      (if n <? 10 then (48 + n) :: acc
       else dec_digits_aux (S f) (n / 10) ((48 + n mod 10) :: acc)).
    destruct (n <? 10) eqn:E.
    + apply Z.ltb_lt in E. exists [48 + n]. split; [reflexivity|].
      split; [discriminate|].
      split; [cbn [forallb]; rewrite is_digit_of by lia; reflexivity|].
      unfold digits_value; cbn [fold_left]. lia.
    + apply Z.ltb_ge in E.
      assert (Hq : 0 <= n / 10 < 10 ^ Z.of_nat (S f)).
      { split; [apply Z.div_pos; lia|].
        apply Z.div_lt_upper_bound; [lia|].
        replace (10 * 10 ^ Z.of_nat (S f)) with (10 ^ Z.of_nat (S (S f))); [lia|].
        rewrite (Nat2Z.inj_succ (S f)), Z.pow_succ_r; lia. }
      destruct (IH (n / 10) ((48 + n mod 10) :: acc) Hq) as [ds [H1 [H2 [H3 H4]]]].
      exists (ds ++ [48 + n mod 10]).
      split; [rewrite H1, <- app_assoc; reflexivity|].
      split; [destruct ds; [congruence|discriminate]|].
      split.
      { rewrite forallb_app, H3. cbn [forallb].
        pose proof (Z.mod_pos_bound n 10 ltac:(lia)).
        rewrite is_digit_of by lia. reflexivity. }
      rewrite digits_value_snoc, H4.
      pose proof (Z.div_mod n 10 ltac:(lia)). lia.
Qed.

Lemma dec_digits_spec (n : Z) :
  0 <= n ->
  exists ds, dec_digits n = ds /\ ds <> [] /\
    forallb is_digit ds = true /\ digits_value ds = n.
Proof.
  intro Hn. unfold dec_digits.
  destruct (dec_digits_aux_spec (Z.to_nat (Z.log2 n)) n [])
    as [ds [H1 H2]].
  - split; [exact Hn|].
    rewrite Nat2Z.inj_succ, Z2Nat.id by apply Z.log2_nonneg.
    destruct (Z.eq_dec n 0) as [->|Hnz]; [simpl; lia|].
    destruct (Z.log2_spec n ltac:(lia)) as [_ Hlt].
    eapply Z.lt_le_trans; [exact Hlt|].
    apply Z.pow_le_mono_l. split; [lia|lia].
  - exists ds. rewrite app_nil_r in H1. split; [exact H1|exact H2].
Qed.

Lemma forallb_rev_digits (l : jsstring) :
  forallb is_digit l = true -> forallb is_digit (rev l) = true.
Proof.
  rewrite !forallb_forall. intros H x Hx. apply H. apply in_rev. exact Hx.
Qed.

Lemma digit_not_minus (c : Z) : is_digit c = true -> (c =? 45) = false.
Proof.
  unfold is_digit. intro H. apply andb_true_iff in H as [H _].
  apply Z.leb_le in H. apply Z.eqb_neq. lia.
Qed.

Lemma parse_fixed1_digits (n : Z) (neg : bool) :
  0 <= n ->
  parse_fixed1 (sign_prefix neg ++ fixed1_digits n) = Some (neg, n).
Proof.
  intro Hn. destruct (dec_digits_spec n Hn) as [ds [Hds [Hne [Hdig Hval]]]].
  unfold fixed1_digits. rewrite Hds.
  destruct (Nat.leb_spec (List.length ds) 1) as [Hle|Hgt].
  - destruct ds as [|d0 [|d1 ds0]]; [congruence| |simpl in Hle; lia]. cbn [List.length repeat app Nat.sub firstn skipn].
    assert (Hd0 : is_digit d0 = true) by (simpl in Hdig; destruct (is_digit d0); auto).
    unfold digits_value in Hval; cbn [fold_left] in Hval.
    destruct neg; unfold parse_fixed1, sign_prefix; cbn [app].
    + change (45 =? 45) with true. cbv iota beta.
      cbn [rev app].
      change (46 =? 46) with true. change (is_digit 48) with true.
      rewrite Hd0. cbn [andb negb forallb Datatypes.length Nat.eqb].
      unfold digits_value. cbn [rev app fold_left].
      change (is_digit 48) with true. cbn [andb]. f_equal. f_equal. lia.
    + change (48 =? 45) with false. cbv iota beta.
      cbn [rev app].
      change (46 =? 46) with true. change (is_digit 48) with true.
      rewrite Hd0. cbn [andb negb forallb Datatypes.length Nat.eqb].
      unfold digits_value. cbn [rev app fold_left].
      change (is_digit 48) with true. cbn [andb]. f_equal. f_equal. lia.
  - destruct (exists_last (l := ds) ltac:(congruence)) as [pre [d Hpd]].
    rewrite Hpd in *.
    rewrite length_app in *. cbn [List.length] in *.
    replace (List.length pre + 1 - 1)%nat with (List.length pre) by lia.
    rewrite firstn_app, firstn_all, Nat.sub_diag, skipn_app, skipn_all, Nat.sub_diag.
    cbn [firstn skipn app].
    rewrite app_nil_r.
    rewrite forallb_app in Hdig. apply andb_true_iff in Hdig as [Hpre Hdd].
    cbn [forallb] in Hdd. rewrite andb_true_r in Hdd.
    rewrite digits_value_snoc in Hval.
    assert (Hpre_ne : pre <> []) by (intro; subst; simpl in Hgt; lia).
    assert (Hrev : rev (pre ++ 46 :: [d]) = d :: 46 :: rev pre).
    { rewrite rev_app_distr. reflexivity. }
    assert (Hlr : negb (Nat.eqb (List.length (rev pre)) 0) = true).
    { rewrite length_rev. destruct pre; [congruence|reflexivity]. }
    destruct neg; unfold parse_fixed1, sign_prefix; cbn [app].
    + rewrite Z.eqb_refl, Hrev, Z.eqb_refl, Hdd, (forallb_rev_digits pre Hpre), Hlr.
      rewrite rev_involutive. cbn [andb negb]. f_equal. f_equal. exact Hval.
    + destruct pre as [|c pre']; [congruence|].
      assert (Hc : (c =? 45) = false).
      { apply digit_not_minus. cbn [forallb] in Hpre.
        destruct (is_digit c); [reflexivity|discriminate]. }
      cbn [app]. rewrite Hc. cbv beta iota.
      change (c :: pre' ++ [46; d]) with ((c :: pre') ++ [46; d]).
      rewrite Hrev, Z.eqb_refl, Hdd, (forallb_rev_digits _ Hpre), Hlr.
      rewrite rev_involutive. cbn [andb negb]. f_equal. f_equal. exact Hval.
Qed.

Lemma round10_nonneg (m : positive) (e : Z) : 0 <= round10 m e.
Proof.
  unfold round10. destruct (0 <=? e) eqn:He.
  - apply Z.leb_le in He. pose proof (Z.pow_nonneg 2 e ltac:(lia)). lia.
  - apply Z.leb_gt in He.
    apply Z.div_pos; [pose proof (Z.pow_pos_nonneg 2 (- e) ltac:(lia)); lia|].
    apply Z.pow_pos_nonneg; lia.
Qed.

(** X1: every string [convertTemp] returns for a zero or finite operand
    below 10^21 in magnitude is well formed: "-" exactly for a negative
    nonzero operand (including readings that round to zero, "-0.0"), then
    one or more digits, ".", one digit; read back as a decimal it is the
    operand's exact value rounded to one decimal place, ties away from zero
    (zero of either sign reads "0.0").  NaN, the infinities and magnitudes
    of 10^21 or more are handed to Number::toString instead. *)
Theorem X1_convertTemp_reads_back (t : jsstring) (x : float) :
  match Prim2SF (converted_operand t x) with
  | S754_zero _ =>
      convertTemp t x = FixedStr (js "0.0") /\
      parse_fixed1 (js "0.0") = Some (false, 0)
  | S754_finite s m e =>
      if too_large m e
      then convertTemp t x = NumberToString (converted_operand t x)
      else exists str, convertTemp t x = FixedStr str /\
             parse_fixed1 str = Some (s, round10 m e) /\
             nearest_tenth (fabs_q m e) (round10 m e)
  | _ => convertTemp t x = NumberToString (converted_operand t x)
  end.
Proof.
  rewrite convertTemp_operand. unfold toFixed1.
  destruct (Prim2SF (converted_operand t x)) as [b|b| |s m e]; try reflexivity.
  - split; reflexivity.
  - destruct (too_large m e); [reflexivity|].
    exists (sign_prefix s ++ fixed1_digits (round10 m e)).
    split; [reflexivity|].
    split; [apply parse_fixed1_digits, round10_nonneg|].
    apply round10_nearest.
Qed.

(** ** Typing and submitting *)

(** X2: typing a text [v] (handleInput) and submitting it requests [v]
    exactly as typed, surrounding whitespace included, whenever [v] is not
    blank; a blank [v] is stored in the input and nothing is requested. *)
Theorem X2_input_then_submit (c : config) (v : jsstring) :
  (is_blank v ->
   run c [Input v; Submit] = Some (mkConfig (set_city (st c) v) (pending c), [])) /\
  (~ is_blank v ->
   run c [Input v; Submit]
     = Some (mkConfig (fetch_start (set_city (st c) v)) (S (pending c)),
             [FetchWeather v])).
Proof.
  split; intro Hb; unfold run, step, handleSubmit; cbn [st city set_city].
  - apply trim_nil in Hb. rewrite Hb. reflexivity.
  - destruct (trim v) eqn:E; [apply trim_nil in E; contradiction|].
    reflexivity.
Qed.

(** ** Outstanding lookups *)

Definition loading_pending_inv (c : config) : Prop :=
  loading (st c) = true -> (0 < pending c)%nat.

Lemma step_loading_pending_inv (c c' : config) (ev : event) (effs : list effect) :
  loading_pending_inv c -> step c ev = Some (c', effs) -> loading_pending_inv c'.
Proof.
  unfold loading_pending_inv. intros Hi Hs.
  destruct ev as [v | | u | o]; simpl in Hs.
  - inversion Hs; subst. exact Hi.
  - unfold handleSubmit in Hs.
    destruct (str_truthy (trim (city (st c)))); inversion Hs; subst;
      [intros _; simpl; lia | exact Hi].
  - inversion Hs; subst. exact Hi.
  - destruct (pending c); inversion Hs; subst. cbn [st].
    rewrite fetch_settle_loading. discriminate.
Qed.

(** X4: in every configuration the widget reaches after mounting, the
    loading indicator is only shown while at least one fetch is outstanding
    (the converse fails: the first lookup to settle clears the flag even if
    another is still outstanding). *)
Theorem X4_loading_needs_pending (c : config) (Hr : reachable c)
    (Hl : loading (st c) = true) :
  (0 < pending c)%nat.
Proof.
  destruct Hr as [evs [effs Hrun]].
  assert (Hinv : forall evs c0 c1 effs, loading_pending_inv c0 ->
            run c0 evs = Some (c1, effs) -> loading_pending_inv c1).
  { induction evs0 as [|ev rest IH]; simpl; intros c0 c1 effs0 H0 Hrun0.
    - inversion Hrun0; subst. exact H0.
    - destruct (step c0 ev) as [[ca ea]|] eqn:Hs; [|discriminate].
      destruct (run ca rest) as [[cb eb]|] eqn:Hr2; [|discriminate].
      inversion Hrun0; subst.
      exact (IH ca c1 eb (step_loading_pending_inv c0 ca ev ea H0 Hs) Hr2). }
  apply (Hinv evs (fst mount) c effs); [|exact Hrun|exact Hl].
  intros _. simpl. lia.
Qed.

Lemma X4_loading_needs_pending_witness :
  reachable (fst mount) /\ (0 < pending (fst mount))%nat.
Proof.
  assert (Hr : reachable (fst mount)) by (exists [], []; reflexivity).
  split; [exact Hr|].
  exact (X4_loading_needs_pending (fst mount) Hr eq_refl).
Defined.

(** ** Error display *)

(** X5: a failure whose exception message is the empty string stores ""
    as the error, which the render treats as no error: no error banner is
    shown and a previously stored snapshot is displayed as a success. *)
Theorem X5_empty_error_message_shows_snapshot (toLowerCase : jsstring -> jsstring)
    (c : config) (p : nat) (d : snapshot)
    (Hp : pending c = S p) (Hd : weatherData (st c) = Some d) :
  exists c', step c (Respond (NetworkError [])) = Some (c', []) /\
    error (st c') = Some [] /\
    v_error_banner (render toLowerCase (st c')) = None /\
    v_success (render toLowerCase (st c')) = true /\
    v_panel (render toLowerCase (st c')) = render_panel toLowerCase (temp (st c)) d.
Proof.
  eexists. unfold step. rewrite Hp. split; [reflexivity|].
  unfold fetch_settle, render. cbn. rewrite Hd. repeat split; reflexivity.
Qed.

Lemma X5_empty_error_message_shows_snapshot_witness :
  pending (mkConfig (set_weatherData initial_state snapshot_accra) 1) = 1%nat /\
  exists c', step (mkConfig (set_weatherData initial_state snapshot_accra) 1)
               (Respond (NetworkError [])) = Some (c', []).
Proof.
  split; [reflexivity|].
  destruct (X5_empty_error_message_shows_snapshot (fun s => s)
              (mkConfig (set_weatherData initial_state snapshot_accra) 1) 0
              snapshot_accra eq_refl eq_refl) as [c' [H _]].
  exists c'. exact H.
Defined.

(** ** The stored snapshot *)

Lemma step_weatherData (c c' : config) (ev : event) (effs : list effect) :
  step c ev = Some (c', effs) ->
  weatherData (st c') = weatherData (st c) \/
  exists status d, ev = Respond (Response status (JsonBody d)) /\
    response_ok status = true /\ weatherData (st c') = Some d.
Proof.
  destruct ev as [v | | u | o]; simpl; intro H.
  - inversion H; subst. left. reflexivity.
  - unfold handleSubmit in H.
    destruct (str_truthy (trim (city (st c)))); inversion H; subst; left; reflexivity.
  - inversion H; subst. left. reflexivity.
  - destruct (pending c); [discriminate|]. inversion H; subst. cbn [st].
    destruct o as [m | status [d | m]]; unfold fetch_settle.
    + left. reflexivity.
    + destruct (response_ok status) eqn:Hok; cbn [negb].
      * right. exists status, d. repeat split; assumption || reflexivity.
      * left. destruct (status =? 404); reflexivity.
    + left. destruct (negb (response_ok status)); [destruct (status =? 404)|];
        reflexivity.
Qed.

(** X7: over any run of events, the stored snapshot either stays what it
    was or is the body of a successful (2xx) response settled during the
    run; in particular no event ever clears a stored snapshot. *)
Theorem X7_snapshot_only_from_success (c c' : config) (evs : list event)
    (effs : list effect) (H : run c evs = Some (c', effs)) :
  weatherData (st c') = weatherData (st c) \/
  exists status d, In (Respond (Response status (JsonBody d))) evs /\
    response_ok status = true /\ weatherData (st c') = Some d.
Proof.
  revert c effs H. induction evs as [|ev rest IH]; simpl; intros c effs H.
  - inversion H; subst. left. reflexivity.
  - destruct (step c ev) as [[c1 e1]|] eqn:Hs; [|discriminate].
    destruct (run c1 rest) as [[c2 e2]|] eqn:Hr; [|discriminate].
    inversion H; subst.
    destruct (IH c1 e2 Hr) as [Heq | [status [d [Hin [Hok Hd]]]]].
    + destruct (step_weatherData c c1 ev e1 Hs) as [H1 | [status [d [Hev [Hok Hd]]]]].
      * left. rewrite Heq. exact H1.
      * right. exists status, d. subst ev. rewrite Heq.
        split; [left; reflexivity|]. split; assumption.
    + right. exists status, d. split; [right; exact Hin|]. split; assumption.
Qed.

Lemma X7_snapshot_only_from_success_witness :
  exists c' effs,
    run (fst mount) [Respond (Response 200 (JsonBody snapshot_accra));
                     Submit; Respond (Response 500 (BadJson []))] = Some (c', effs) /\
    (weatherData (st c') = weatherData (st (fst mount)) \/
     exists status d,
       In (Respond (Response status (JsonBody d)))
          [Respond (Response 200 (JsonBody snapshot_accra));
           Submit; Respond (Response 500 (BadJson []))] /\
       response_ok status = true /\ weatherData (st c') = Some d).
Proof.
  destruct (run (fst mount) [Respond (Response 200 (JsonBody snapshot_accra));
                             Submit; Respond (Response 500 (BadJson []))])
    as [[c' effs]|] eqn:H; [|discriminate].
  exists c', effs. split; [reflexivity|].
  exact (X7_snapshot_only_from_success (fst mount) c' _ effs H).
Defined.
